(** * Verification of [nics/moleculetools.py]

    A shallow embedding of the geometric core of the module: the vector
    primitives, the normal estimators, the rotation builder, the point-set
    transformer and the [Structure] class with its in-place methods.

    Arithmetic.  numpy computes on IEEE double precision numbers.  Rounding
    is not modelled: a finite number is a real number, computed exactly.
    What is modelled of IEEE arithmetic is the one non-finite value the
    program produces on its own, [nan]: [0/0] is [nan], and [nan] is
    absorbing for every operation.  The two divisors of the program, a
    Euclidean norm and an element count, vanish only together with their
    dividend (lemmas [norm_zero_inv] and [mean_empty]), so that no
    infinity arises from finite input. *)

From Stdlib Require Import String.
From Stdlib Require Import Reals RNsatz Lra Lia Psatz.
From Stdlib Require Import List Permutation.
Import ListNotations.

Set Implicit Arguments.

(** ** numpy scalars *)

Module Np.

Local Open Scope R_scope.

Inductive float64 : Type :=
| Num (r : R)
| NaN.

Definition fadd (a b : float64) : float64 :=
  match a, b with Num x, Num y => Num (x + y) | _, _ => NaN end.

Definition fsub (a b : float64) : float64 :=
  match a, b with Num x, Num y => Num (x - y) | _, _ => NaN end.

Definition fmul (a b : float64) : float64 :=
  match a, b with Num x, Num y => Num (x * y) | _, _ => NaN end.

Definition fneg (a : float64) : float64 :=
  match a with Num x => Num (- x) | NaN => NaN end.

(** [x / 0] is [nan] at [x = 0]; the program never divides a non-zero
    number by zero from finite input, so the infinities are left out. *)
Definition fdiv (a b : float64) : float64 :=
  match a, b with
  | Num x, Num y => if Req_EM_T y 0 then NaN else Num (x / y)
  | _, _ => NaN
  end.

Definition fsqrt (a : float64) : float64 :=
  match a with
  | Num x => if Rlt_dec x 0 then NaN else Num (sqrt x)
  | NaN => NaN
  end.

Definition fabs (a : float64) : float64 :=
  match a with Num x => Num (Rabs x) | NaN => NaN end.

(** [np.clip(a, lo, hi)] is [minimum(maximum(a, lo), hi)]. *)
Definition clip (a : float64) (lo hi : R) : float64 :=
  match a with Num x => Num (Rmin (Rmax x lo) hi) | NaN => NaN end.

Definition fsin (a : float64) : float64 :=
  match a with Num x => Num (sin x) | NaN => NaN end.

Definition fcos (a : float64) : float64 :=
  match a with Num x => Num (cos x) | NaN => NaN end.

Definition arccos (a : float64) : float64 :=
  match a with
  | Num x =>
      if Rlt_dec x (-1) then NaN
      else if Rlt_dec 1 x then NaN else Num (acos x)
  | NaN => NaN
  end.

#[global] Arguments fdiv : simpl never.
#[global] Arguments fsqrt : simpl never.
#[global] Arguments arccos : simpl never.

(** Sum of a sequence, as [ndarray.sum] (the order of the additions does
    not matter in exact arithmetic). *)
Definition fsum (l : list float64) : float64 :=
  fold_right fadd (Num 0) l.

(** [ndarray.mean]: sum over count, [nan] on an empty array. *)
Definition fmean (l : list float64) : float64 :=
  fdiv (fsum l) (Num (INR (length l))).

(** ** Arrays of fixed shape *)

Record vec3 : Type := V3 { vx : float64; vy : float64; vz : float64 }.

Record vec4 : Type :=
  V4 { h0 : float64; h1 : float64; h2 : float64; h3 : float64 }.

Record mat3 : Type := M3 { r0 : vec3; r1 : vec3; r2 : vec3 }.

Record mat4 : Type := M4 { m0 : vec4; m1 : vec4; m2 : vec4; m3 : vec4 }.

(** A value that is either a 0-d array or an array of shape (3,): the
    mean over axis 0 of an empty list of normals is the scalar [nan]. *)
Inductive ndarray : Type :=
| Scalar (x : float64)
| Vector (v : vec3).

Definition vec (x y z : R) : vec3 := V3 (Num x) (Num y) (Num z).

Definition nan3 : vec3 := V3 NaN NaN NaN.

Definition vmap (f : float64 -> float64) (v : vec3) : vec3 :=
  V3 (f (vx v)) (f (vy v)) (f (vz v)).

Definition vmap2 (f : float64 -> float64 -> float64) (u v : vec3) : vec3 :=
  V3 (f (vx u) (vx v)) (f (vy u) (vy v)) (f (vz u) (vz v)).

Definition vsub : vec3 -> vec3 -> vec3 := vmap2 fsub.
Definition vadd : vec3 -> vec3 -> vec3 := vmap2 fadd.
Definition vabs : vec3 -> vec3 := vmap fabs.
Definition vscale (v : vec3) (s : float64) : vec3 := vmap (fun a => fmul a s) v.
Definition vdiv (v : vec3) (s : float64) : vec3 := vmap (fun a => fdiv a s) v.

(** [np.dot] of two arrays of shape (3,). *)
Definition dot (u v : vec3) : float64 :=
  fadd (fadd (fmul (vx u) (vx v)) (fmul (vy u) (vy v))) (fmul (vz u) (vz v)).

(** [np.cross] of two arrays of shape (3,). *)
Definition cross (u v : vec3) : vec3 :=
  V3 (fsub (fmul (vy u) (vz v)) (fmul (vz u) (vy v)))
     (fsub (fmul (vz u) (vx v)) (fmul (vx u) (vz v)))
     (fsub (fmul (vx u) (vy v)) (fmul (vy u) (vx v))).

(** [np.linalg.norm] of a 1-d array: [sqrt(x.dot(x))]. *)
Definition norm (v : vec3) : float64 := fsqrt (dot v v).

(** [np.dot(R, p)] for [R] of shape (3,3). *)
Definition mat3_dot (m : mat3) (p : vec3) : vec3 :=
  V3 (dot (r0 m) p) (dot (r1 m) p) (dot (r2 m) p).

Definition dot4 (u v : vec4) : float64 :=
  fadd (fadd (fadd (fmul (h0 u) (h0 v)) (fmul (h1 u) (h1 v)))
             (fmul (h2 u) (h2 v)))
       (fmul (h3 u) (h3 v)).

End Np.

Import Np.

Local Open Scope R_scope.

(** ** Module-level functions of moleculetools.py *)

(** [vector/np.linalg.norm(vector)], on an array of shape (3,). *)
Definition unit_vector (vector : vec3) : vec3 :=
  vdiv vector (norm vector).

(** The same expression on a 0-d array [x]: its norm is [sqrt(x*x)]. *)
Definition unit_vector0 (x : float64) : float64 :=
  fdiv x (fsqrt (fmul x x)).

Definition unit_vector_nd (a : ndarray) : ndarray :=
  match a with
  | Scalar x => Scalar (unit_vector0 x)
  | Vector v => Vector (unit_vector v)
  end.

Definition angle_between (u v : vec3) : float64 :=
  let u_u := unit_vector u in
  let v_u := unit_vector v in
  arccos (clip (dot u_u v_u) (-1) 1).

Definition cos_between (u v : vec3) : float64 :=
  let u_u := unit_vector u in
  let v_u := unit_vector v in
  clip (dot u_u v_u) (-1) 1.

Definition find_normal_from_points (a b c : vec3) : vec3 :=
  let dir := cross (vsub b a) (vsub c a) in
  let normal := unit_vector dir in
  normal.

Definition find_normal_from_vectors (u v : vec3) : vec3 :=
  let dir := cross u v in
  let normal := unit_vector dir in
  normal.

(** [rotation_matrix(angle, direction, point=None)].  [R] is built by the
    three in-place updates of the source; [direction *= sin] rescales the
    normalised copy after the outer product has been taken. *)
Definition rotation_matrix (angle : float64) (direction : vec3)
    (point : option vec3) : mat4 :=
  let sin := fsin angle in
  let cos := fcos angle in
  let direction := unit_vector direction in
  let zero := Num 0 in
  (* R = np.diag([cos, cos, cos]) *)
  let R := M3 (V3 cos zero zero) (V3 zero cos zero) (V3 zero zero cos) in
  (* R += np.outer(direction, direction) * (1.0 - cos) *)
  let k := fsub (Num 1) cos in
  let outer_row (a : float64) : vec3 :=
    V3 (fmul (fmul a (vx direction)) k)
       (fmul (fmul a (vy direction)) k)
       (fmul (fmul a (vz direction)) k) in
  let R := M3 (vadd (r0 R) (outer_row (vx direction)))
              (vadd (r1 R) (outer_row (vy direction)))
              (vadd (r2 R) (outer_row (vz direction))) in
  (* direction *= sin *)
  let direction := vscale direction sin in
  (* R += np.array([[0, -d2, d1], [d2, 0, -d0], [-d1, d0, 0]]) *)
  let R := M3 (vadd (r0 R) (V3 zero (fneg (vz direction)) (vy direction)))
              (vadd (r1 R) (V3 (vz direction) zero (fneg (vx direction))))
              (vadd (r2 R) (V3 (fneg (vy direction)) (vx direction) zero)) in
  (* M = np.identity(4); M[:3, :3] = R *)
  let t :=
    match point with
    | None => V3 zero zero zero
    | Some point => vsub point (mat3_dot R point)
    end in
  M4 (V4 (vx (r0 R)) (vy (r0 R)) (vz (r0 R)) (vx t))
     (V4 (vx (r1 R)) (vy (r1 R)) (vz (r1 R)) (vy t))
     (V4 (vx (r2 R)) (vy (r2 R)) (vz (r2 R)) (vz t))
     (V4 zero zero zero (Num 1)).

(** [apply_4x4_matrix_to_3D_set(matrix, coords)] on an array of shape
    (N,3): a column of ones is appended, every row is multiplied by the
    matrix and the fourth component is dropped. *)
Definition apply_4x4_matrix_to_3D_set (matrix : mat4) (coords : list vec3)
    : list vec3 :=
  map (fun p =>
         let hp := V4 (vx p) (vy p) (vz p) (Num 1) in
         V3 (dot4 (m0 matrix) hp) (dot4 (m1 matrix) hp) (dot4 (m2 matrix) hp))
      coords.


(** [find_center(coords)]: the mean of each column. *)
Definition find_center (coords : list vec3) : vec3 :=
  let x := fmean (map vx coords) in
  let y := fmean (map vy coords) in
  let z := fmean (map vz coords) in
  V3 x y z.

(** ** [itertools.combinations(iterable, 3)] *)

Fixpoint combinations2 {A : Type} (l : list A) : list (A * A) :=
  match l with
  | [] => []
  | x :: t => map (fun y => (x, y)) t ++ combinations2 t
  end.

Fixpoint combinations3 {A : Type} (l : list A) : list (A * A * A) :=
  match l with
  | [] => []
  | x :: t => map (fun p => (x, fst p, snd p)) (combinations2 t)
              ++ combinations3 t
  end.

Definition triple_eq_dec (p q : nat * nat * nat) : {p = q} + {p <> q}.
Proof. repeat decide equality. Defined.

(** [list(set(combs))]: the distinct triples.  Python leaves their order
    unspecified; the model fixes one, and [axis_of_any_order] below shows
    that the order is immaterial. *)
Definition unique_combs (combs : list (nat * nat * nat))
    : list (nat * nat * nat) :=
  nodup triple_eq_dec combs.

(** ** Exceptions *)

Inductive exn : Type := IndexError | ValueError | AttributeError.

Inductive result (A : Type) : Type :=
| Ok (a : A)
| Raise (e : exn).

Arguments Ok {A} a.
Arguments Raise {A} e.

Definition rbind {A B : Type} (r : result A) (f : A -> result B) : result B :=
  match r with Ok a => f a | Raise e => Raise e end.

Notation "x <-- r ;; k" := (rbind r (fun x => k))
  (at level 61, r at next level, right associativity).

(** [coords[i,:]] with [i >= 0]. *)
Definition row (coords : list vec3) (i : nat) : result vec3 :=
  match nth_error coords i with
  | Some p => Ok p
  | None => Raise IndexError
  end.

(** [np.mean(norm_array, axis=0)]: [np.array([])] has shape (0,), and its
    mean is the scalar [nan]; otherwise the array has shape (m,3). *)
Definition mean_axis0 (rows : list vec3) : ndarray :=
  match rows with
  | [] => Scalar (fmean [])
  | _ :: _ =>
      Vector (V3 (fmean (map vx rows)) (fmean (map vy rows))
                 (fmean (map vz rows)))
  end.

(** The loop of the module-level [find_axis(coords)]. *)
Fixpoint plain_normals (coords : list vec3) (combs : list (nat * nat * nat))
    : result (list vec3) :=
  match combs with
  | [] => Ok []
  | (i, j, k) :: rest =>
      a <-- row coords i ;;
      b <-- row coords j ;;
      c <-- row coords k ;;
      let norm := find_normal_from_points a b c in
      norm_list <-- plain_normals coords rest ;;
      Ok (norm :: norm_list)
  end.

Definition find_axis (coords : list vec3) : result ndarray :=
  let indices := seq 0 (length coords) in
  let combs := combinations3 indices in
  norm_list <-- plain_normals coords (unique_combs combs) ;;
  Ok (unit_vector_nd (mean_axis0 norm_list)).

(** ** class Structure *)

Module Structure.

(** [center] and [main_axis] do not exist until a method assigns them. *)
Record t : Type := Build {
  name : string;
  atoms : list string;
  coords : list vec3;
  natoms : nat;
  center : option vec3;
  main_axis : option ndarray
}.

(** [Structure(atoms, coords, name=...)].  The body is four assignments
    and a [print]; the result type records that it can return only. *)
Definition init (atoms : list string) (coords : list vec3)
    (name : option string) : result t :=
  Ok {| name := match name with Some n => n | None => "system"%string end;
        atoms := atoms;
        coords := coords;
        natoms := length atoms;
        center := None;
        main_axis := None |}.

(** A method runs on the object and leaves it in some state, whether it
    returns or raises. *)
Definition method (A : Type) : Type := t -> t * result A.

Definition ret {A : Type} (a : A) : method A := fun self => (self, Ok a).

Definition raise {A : Type} (e : exn) : method A :=
  fun self => (self, Raise e).

Definition bind {A B : Type} (m : method A) (f : A -> method B) : method B :=
  fun self =>
    match m self with
    | (self', Ok a) => f a self'
    | (self', Raise e) => (self', Raise e)
    end.

Notation "x <- m ;; k" := (bind m (fun x => k))
  (at level 61, m at next level, right associativity).
Notation "m >> k" := (bind m (fun _ => k))
  (at level 61, right associativity).

Definition lift {A : Type} (r : result A) : method A := fun self => (self, r).

Definition get {A : Type} (field : t -> A) : method A :=
  fun self => (self, Ok (field self)).

(** Reading an attribute that was never assigned. *)
Definition getattr {A : Type} (field : t -> option A) : method A :=
  fun self =>
    match field self with
    | Some a => (self, Ok a)
    | None => (self, Raise AttributeError)
    end.

Definition set_center (c : vec3) : method unit :=
  fun self =>
    (Build (name self) (atoms self) (coords self) (natoms self)
           (Some c) (main_axis self), Ok tt).

Definition set_main_axis (a : ndarray) : method unit :=
  fun self =>
    (Build (name self) (atoms self) (coords self) (natoms self)
           (center self) (Some a), Ok tt).

Definition set_coords (c : list vec3) : method unit :=
  fun self =>
    (Build (name self) (atoms self) c (natoms self)
           (center self) (main_axis self), Ok tt).

Definition find_center : method unit :=
  coords <- get coords ;;
  let x := fmean (map vx coords) in
  let y := fmean (map vy coords) in
  let z := fmean (map vz coords) in
  set_center (V3 x y z).

(** The loop of [Structure.find_axis]: each normal is normalised once
    more and folded to non-negative components before it is appended. *)
Fixpoint normals (coords : list vec3) (combs : list (nat * nat * nat))
    : result (list vec3) :=
  match combs with
  | [] => Ok []
  | (i, j, k) :: rest =>
      a <-- row coords i ;;
      b <-- row coords j ;;
      c <-- row coords k ;;
      let norm := find_normal_from_points a b c in
      norm_list <-- normals coords rest ;;
      Ok (vabs (unit_vector norm) :: norm_list)
  end.

(** [find_axis(self, atoms=None)] ([print_info] is not used by the body). *)
Definition find_axis (atoms : option (list nat)) : method unit :=
  natoms <- get natoms ;;
  let atoms := match atoms with Some l => l | None => seq 0 natoms end in
  let combs := combinations3 atoms in
  coords <- get coords ;;
  norm_list <- lift (normals coords (unique_combs combs)) ;;
  let norm_mean := mean_axis0 norm_list in
  set_main_axis (unit_vector_nd norm_mean).

Definition update_geometry : method unit :=
  find_center >> find_axis None.

(** [np.matmul(np.ones((natoms, 1)), np.reshape(center, (1, 3)))]. *)
Definition trans_matrix (natoms : nat) (center : vec3) : list vec3 :=
  repeat (vmap (fmul (Num 1)) center) natoms.

(** [a - b] for [a] of shape (n,3) and [b] of shape (m,3), with numpy's
    broadcasting of an axis of length one. *)
Definition broadcast_sub (a b : list vec3) : result (list vec3) :=
  if Nat.eqb (length a) (length b) then
    Ok (map (fun pq => vsub (fst pq) (snd pq)) (combine a b))
  else
    match a, b with
    | _, q :: nil => Ok (map (fun p => vsub p q) a)
    | p :: nil, _ => Ok (map (fun q => vsub p q) b)
    | _, _ => Raise ValueError
    end.

Definition translate_to_center : method unit :=
  update_geometry >>
  natoms <- get natoms ;;
  center <- getattr center ;;
  let trans_matrix := trans_matrix natoms center in
  coords <- get coords ;;
  coords' <- lift (broadcast_sub coords trans_matrix) ;;
  set_coords coords' >>
  update_geometry.

(** [rotate_to_z].  When [main_axis] is a 0-d array, [angle_between]
    still evaluates (by broadcasting) and [np.cross] raises. *)
Definition rotate_to_z : method unit :=
  update_geometry >>
  let z := vec 0 0 1 in
  main_axis <- getattr main_axis ;;
  match main_axis with
  | Scalar _ => raise ValueError
  | Vector main_axis =>
      let angle := angle_between main_axis z in
      let direction := find_normal_from_vectors main_axis z in
      center <- getattr center ;;
      let M := rotation_matrix angle direction (Some center) in
      coords <- get coords ;;
      set_coords (apply_4x4_matrix_to_3D_set M coords) >>
      update_geometry
  end.

(** The state a method leaves, and how it ended. *)
Definition state_after {A : Type} (m : method A) (self : t) : t := fst (m self).
Definition outcome {A : Type} (m : method A) (self : t) : result A :=
  snd (m self).

End Structure.

(** * Notions used in the statements *)

Abbreviation Build := Structure.Build.
Abbreviation name := Structure.name.
Abbreviation atoms := Structure.atoms.
Abbreviation coords := Structure.coords.
Abbreviation natoms := Structure.natoms.
Abbreviation center := Structure.center.
Abbreviation main_axis := Structure.main_axis.

(** ** Matrices *)

(** The squared length of [(x, y, z)]. *)
Definition sq3 (x y z : R) : R := x * x + y * y + z * z.















(** ** Point sets of finite coordinates *)

(** A point with real coordinates, and [np.asarray] of a list of them. *)
Definition point : Type := (R * R * R)%type.

Definition px (p : point) : R := fst (fst p).
Definition py (p : point) : R := snd (fst p).
Definition pz (p : point) : R := snd p.

Definition pt (p : point) : vec3 := vec (px p) (py p) (pz p).

Definition array (pts : list point) : list vec3 := map pt pts.

Definition rsum (l : list R) : R := fold_right Rplus 0 l.

(** The centroid of a point set, and the point set moved by [- 1.0 * c]. *)
Definition centroid (pts : list point) : point :=
  let n := INR (length pts) in
  (rsum (map px pts) / n, rsum (map py pts) / n, rsum (map pz pts) / n).






(** ** The axis finder as a function *)

(** The triples drawn from [range(n)]: in range, strictly increasing. *)
Definition default_combs (n : nat) : list (nat * nat * nat) :=
  unique_combs (combinations3 (seq 0 n)).

(** One iteration of the loop of [Structure.find_axis]. *)
Definition folded_normal_at (coords : list vec3) (t : nat * nat * nat)
    : result vec3 :=
  let '(i, j, k) := t in
  a <-- row coords i ;;
  b <-- row coords j ;;
  c <-- row coords k ;;
  Ok (vabs (unit_vector (find_normal_from_points a b c))).


(** What [Structure.find_axis()] assigns to [main_axis], as a function of
    [natoms] and [coords]. *)
Definition axis_of (natoms : nat) (coords : list vec3) : result ndarray :=
  norm_list <-- Structure.normals coords (default_combs natoms) ;;
  Ok (unit_vector_nd (mean_axis0 norm_list)).

(** ** Frames *)

Definition same_labels (s s' : Structure.t) : Prop :=
  name s' = name s /\ atoms s' = atoms s /\ natoms s' = natoms s.

Definition preserves_labels {A : Type} (m : Structure.method A) : Prop :=
  forall self, same_labels self (Structure.state_after m self).

(** ** Structures used as examples *)

(** The planar four-point set of the specification, and a structure on it. *)
Definition square : list point :=
  [(0, 0, 0); (1, 0, 0); (0, 1, 0); (1, 1, 0)].

Definition square_structure : Structure.t :=
  Build "system" ["C"; "C"; "C"; "C"]%string (array square) 4 None None.



Definition pair_structure : Structure.t :=
  Build "system" ["H"; "H"]%string (array [(0, 0, 0); (2, 0, 0)]) 2 None None.

(** ** Rotations of real points *)








Definition short_structure : Structure.t :=
  Build "system" ["H"; "H"; "H"]%string (array [(0, 0, 0)]) 3 None None.

(** Two runs of a method agree when they end the same way and, if they
    return, leave the same object. *)
Definition agree (r1 r2 : Structure.t * result unit) : Prop :=
  snd r1 = snd r2 /\ (snd r1 = Ok tt -> fst r1 = fst r2).

(** * Tactics *)

(** Equality of arrays of finite numbers, entry by entry. *)
Ltac entrywise :=
  repeat match goal with
    | |- M3 _ _ _ = M3 _ _ _ => apply f_equal3
    | |- V3 _ _ _ = V3 _ _ _ => apply f_equal3
    | |- Num _ = Num _ => apply f_equal
    | |- _ :: _ = _ :: _ => apply f_equal2
    | |- @nil _ = @nil _ => reflexivity
    end.



(** * Properties *)

(** ** Arithmetic on finite numbers *)

Section Arithmetic.

Lemma fdiv_num (x y : R) : y <> 0 -> fdiv (Num x) (Num y) = Num (x / y).
Proof.
  intros Hy. unfold fdiv. destruct (Req_EM_T y 0) as [E | _]; [contradiction | reflexivity].
Qed.

Lemma fdiv_zero (x : R) : fdiv (Num x) (Num 0) = NaN.
Proof.
  unfold fdiv. destruct (Req_EM_T 0 0) as [_ | N]; [reflexivity | now elim N].
Qed.

Lemma fsqrt_num (x : R) : 0 <= x -> fsqrt (Num x) = Num (sqrt x).
Proof.
  intros Hx. unfold fsqrt. destruct (Rlt_dec x 0) as [L | _]; [lra | reflexivity].
Qed.

Lemma sq3_nonneg (x y z : R) : 0 <= sq3 x y z.
Proof. unfold sq3. nra. Qed.

Lemma sq3_pos (x y z : R) : (x, y, z) <> (0, 0, 0) -> 0 < sq3 x y z.
Proof.
  intros H. unfold sq3.
  destruct (Req_EM_T x 0) as [-> | Hx]; [| nra].
  destruct (Req_EM_T y 0) as [-> | Hy]; [| nra].
  destruct (Req_EM_T z 0) as [-> | Hz]; [now elim H | nra].
Qed.


Lemma norm_vec (x y z : R) : norm (vec x y z) = Num (sqrt (sq3 x y z)).
Proof. unfold norm, dot, vec. cbn. apply fsqrt_num, sq3_nonneg. Qed.


(** The mean divides by zero only on an empty array, whose sum is zero. *)
Lemma mean_empty : fmean [] = NaN.
Proof. unfold fmean. cbn. apply fdiv_zero. Qed.

Lemma unit_vector_vec (x y z : R) :
  (x, y, z) <> (0, 0, 0) ->
  let n := sqrt (sq3 x y z) in
  unit_vector (vec x y z) = vec (x / n) (y / n) (z / n).
Proof.
  intros H n. unfold unit_vector. rewrite norm_vec. fold n.
  assert (Hn : n <> 0).
  { unfold n. intros E. apply sqrt_eq_0 in E; [| apply sq3_nonneg].
    pose proof (sq3_pos H). lra. }
  unfold vdiv, vmap, vec. cbn. now rewrite !fdiv_num by exact Hn.
Qed.

Lemma unit_sq3 (x y z : R) :
  (x, y, z) <> (0, 0, 0) ->
  let n := sqrt (sq3 x y z) in
  sq3 (x / n) (y / n) (z / n) = 1.
Proof.
  intros H n. pose proof (sq3_pos H) as Hp.
  assert (Hn : n * n = sq3 x y z) by (apply sqrt_sqrt; lra).
  assert (Hn0 : n <> 0) by (intros E; rewrite E in Hn; lra).
  unfold sq3 in *. field_simplify_eq; [| exact Hn0]. lra.
Qed.

End Arithmetic.

(** ** The rotation builder *)

Section Rotation.







End Rotation.

(** ** Normalisation of the zero vector *)

Section ZeroVector.

Lemma unit_vector_norm_zero (v : vec3) :
  norm v = Num 0 -> unit_vector v = nan3.
Proof.
  intros H. unfold unit_vector. rewrite H.
  destruct v as [[x|] [y|] [z|]]; try discriminate H;
    unfold vdiv, vmap, nan3; cbn; now rewrite !fdiv_zero.
Qed.




End ZeroVector.

(** ** Combinations of indices *)

Section Combinations.

Lemma combinations2_seq (a n x y : nat) :
  In (x, y) (combinations2 (seq a n)) -> (a <= x < y)%nat /\ (y < a + n)%nat.
Proof.
  revert a. induction n as [| n IH]; intros a; cbn; [tauto |].
  rewrite in_app_iff, in_map_iff. intros [(y' & E & Hy) | Hin].
  - injection E as <- <-. apply in_seq in Hy. lia.
  - apply IH in Hin. lia.
Qed.

Lemma combinations3_seq (a n x y z : nat) :
  In (x, y, z) (combinations3 (seq a n)) ->
  (a <= x < y)%nat /\ (y < z)%nat /\ (z < a + n)%nat.
Proof.
  revert a. induction n as [| n IH]; intros a; cbn; [tauto |].
  rewrite in_app_iff, in_map_iff. intros [([y' z'] & E & Hp) | Hin].
  - cbn in E. injection E as <- <- <-. apply combinations2_seq in Hp. lia.
  - apply IH in Hin. lia.
Qed.

Lemma combinations2_seq_In (a n x y : nat) :
  (a <= x < y)%nat -> (y < a + n)%nat -> In (x, y) (combinations2 (seq a n)).
Proof.
  revert a. induction n as [| n IH]; intros a Hx Hy; [lia |].
  cbn [seq combinations2]. apply in_or_app.
  destruct (Nat.eq_dec x a) as [-> | Hne].
  - left. apply in_map. apply in_seq. lia.
  - right. apply IH; lia.
Qed.

Lemma combinations3_seq_In (a n x y z : nat) :
  (a <= x < y)%nat -> (y < z)%nat -> (z < a + n)%nat ->
  In (x, y, z) (combinations3 (seq a n)).
Proof.
  revert a. induction n as [| n IH]; intros a Hx Hy Hz; [lia |].
  cbn [seq combinations3]. apply in_or_app.
  destruct (Nat.eq_dec x a) as [-> | Hne].
  - left. apply in_map_iff. exists (y, z). split; [reflexivity |].
    apply combinations2_seq_In; lia.
  - right. apply IH; lia.
Qed.


Lemma combinations3_short {A : Type} (l : list A) :
  (length l < 3)%nat -> combinations3 l = [].
Proof.
  destruct l as [| x [| y [| z l]]]; cbn; intros H; try reflexivity; lia.
Qed.

Lemma unique_combs_In (t : nat * nat * nat) (combs : list (nat * nat * nat)) :
  In t (unique_combs combs) <-> In t combs.
Proof. apply nodup_In. Qed.


Lemma unique_combs_nil : unique_combs [] = [].
Proof. reflexivity. Qed.

Lemma default_combs_spec (n i j k : nat) :
  In (i, j, k) (default_combs n) -> (i < j < k)%nat /\ (k < n)%nat.
Proof.
  unfold default_combs. rewrite unique_combs_In.
  intros H. apply combinations3_seq in H. lia.
Qed.

End Combinations.

(** ** Point sets of finite coordinates *)

Section PointSets.

Lemma fsum_Num (l : list R) : fsum (map Num l) = Num (rsum l).
Proof.
  induction l as [| x l IH]; cbn; [reflexivity |].
  unfold fsum in IH. now rewrite IH.
Qed.

Lemma map_vx_array (pts : list point) :
  map vx (array pts) = map Num (map px pts).
Proof. unfold array. rewrite !map_map. reflexivity. Qed.

Lemma map_vy_array (pts : list point) :
  map vy (array pts) = map Num (map py pts).
Proof. unfold array. rewrite !map_map. reflexivity. Qed.

Lemma map_vz_array (pts : list point) :
  map vz (array pts) = map Num (map pz pts).
Proof. unfold array. rewrite !map_map. reflexivity. Qed.

Lemma fmean_Num (l : list R) :
  l <> [] -> fmean (map Num l) = Num (rsum l / INR (length l)).
Proof.
  intros Hl. unfold fmean. rewrite fsum_Num, length_map.
  apply fdiv_num. apply not_0_INR. destruct l; [congruence | cbn; lia].
Qed.


End PointSets.

(** ** Methods as state transformers *)

Module StructureFacts.

Import Structure.

(** *** The fields a method may not touch *)

Lemma same_labels_refl (s : t) : same_labels s s.
Proof. now repeat split. Qed.

Lemma same_labels_trans (s1 s2 s3 : t) :
  same_labels s1 s2 -> same_labels s2 s3 -> same_labels s1 s3.
Proof. unfold same_labels. intuition congruence. Qed.

Section Frame.

Context {A B : Type}.

Lemma frame_ret (a : A) : preserves_labels (ret a).
Proof. intros s. apply same_labels_refl. Qed.

Lemma frame_raise (e : exn) : preserves_labels (@raise A e).
Proof. intros s. apply same_labels_refl. Qed.

Lemma frame_lift (r : result A) : preserves_labels (lift r).
Proof. intros s. apply same_labels_refl. Qed.

Lemma frame_get (field : t -> A) : preserves_labels (get field).
Proof. intros s. apply same_labels_refl. Qed.

Lemma frame_getattr (field : t -> option A) : preserves_labels (getattr field).
Proof.
  intros s. unfold state_after, getattr.
  destruct (field s); apply same_labels_refl.
Qed.

Lemma frame_bind (m : method A) (f : A -> method B) :
  preserves_labels m -> (forall a, preserves_labels (f a)) ->
  preserves_labels (bind m f).
Proof.
  intros Hm Hf s. specialize (Hm s). unfold state_after, bind in *.
  destruct (m s) as [s' [a | e]]; cbn in *.
  - eapply same_labels_trans; [exact Hm | apply Hf].
  - exact Hm.
Qed.

End Frame.

Lemma frame_set_center (c : vec3) : preserves_labels (set_center c).
Proof. intros s. now repeat split. Qed.

Lemma frame_set_main_axis (a : ndarray) : preserves_labels (set_main_axis a).
Proof. intros s. now repeat split. Qed.

Lemma frame_set_coords (c : list vec3) : preserves_labels (set_coords c).
Proof. intros s. now repeat split. Qed.

Create HintDb frame.
#[local] Hint Resolve frame_ret frame_raise frame_lift frame_get frame_getattr
  frame_set_center frame_set_main_axis frame_set_coords : frame.

Ltac frame :=
  repeat first
    [ apply frame_bind; [| intros ? ]
    | solve [ auto with frame ]
    | match goal with
      | |- preserves_labels (match ?x with _ => _ end) => destruct x
      end ].

Lemma frame_find_center : preserves_labels find_center.
Proof. unfold find_center. frame. Qed.

Lemma frame_find_axis (subset : option (list nat)) :
  preserves_labels (find_axis subset).
Proof. unfold find_axis. frame. Qed.

#[local] Hint Resolve frame_find_center frame_find_axis : frame.

Lemma frame_update_geometry : preserves_labels update_geometry.
Proof. unfold update_geometry. frame. Qed.

#[local] Hint Resolve frame_update_geometry : frame.

(** C9.  From every state, and whether they return or raise,
    [translate_to_center] and [rotate_to_z] leave [atoms], [natoms] and
    [name] as they found them; [coords], [center] and [main_axis] are the
    only other fields of the object. *)
Theorem geometric_operations_keep_labels (self : t) :
  same_labels self (state_after translate_to_center self) /\
  same_labels self (state_after rotate_to_z self).
Proof.
  split.
  - revert self. change (preserves_labels translate_to_center).
    unfold translate_to_center. frame.
  - revert self. change (preserves_labels rotate_to_z).
    unfold rotate_to_z. frame.
Qed.

End StructureFacts.

(** ** The consensus axis *)

Section Axis.

Lemma unit_vector_unit (x y z : R) :
  sq3 x y z = 1 -> unit_vector (vec x y z) = vec x y z.
Proof.
  intros H.
  assert (Hnz : (x, y, z) <> (0, 0, 0)).
  { intros E. injection E as -> -> ->. unfold sq3 in H. lra. }
  rewrite (unit_vector_vec Hnz), H, sqrt_1.
  unfold vec. entrywise; field.
Qed.


Lemma cross_points (a b c : point) :
  cross (vsub (pt b) (pt a)) (vsub (pt c) (pt a))
  = vec ((py b - py a) * (pz c - pz a) - (pz b - pz a) * (py c - py a))
        ((pz b - pz a) * (px c - px a) - (px b - px a) * (pz c - pz a))
        ((px b - px a) * (py c - py a) - (py b - py a) * (px c - px a)).
Proof. reflexivity. Qed.



(** On a well-shaped array the loop completes, and every normal it
    collects is a folded unit vector when no triple is collinear. *)
Lemma normals_total (coords : list vec3) (combs : list (nat * nat * nat)) :
  (forall i j k, In (i, j, k) combs ->
     (i < length coords)%nat /\ (j < length coords)%nat /\ (k < length coords)%nat) ->
  exists l, Structure.normals coords combs = Ok l /\ length l = length combs.
Proof.
  induction combs as [| [[i j] k] combs IH]; intros Hin.
  - exists []. now split.
  - destruct IH as (l & El & Hl); [intros; apply Hin; now right |].
    destruct (Hin i j k (or_introl eq_refl)) as (Hi & Hj & Hk).
    cbn. unfold row.
    destruct (nth_error coords i) eqn:Ei; [| apply nth_error_None in Ei; lia].
    destruct (nth_error coords j) eqn:Ej; [| apply nth_error_None in Ej; lia].
    destruct (nth_error coords k) eqn:Ek; [| apply nth_error_None in Ek; lia].
    cbn. rewrite El. cbn. eexists. split; [reflexivity |]. cbn. now rewrite Hl.
Qed.



Lemma mean_axis0_array (pts : list point) :
  pts <> [] ->
  let n := INR (length pts) in
  mean_axis0 (array pts)
  = Vector (vec (rsum (map px pts) / n) (rsum (map py pts) / n)
                (rsum (map pz pts) / n)).
Proof.
  intros Hp n. destruct pts as [| p pts]; [congruence |].
  change (mean_axis0 (array (p :: pts)))
    with (Vector (V3 (fmean (map vx (array (p :: pts))))
                     (fmean (map vy (array (p :: pts))))
                     (fmean (map vz (array (p :: pts)))))).
  rewrite map_vx_array, map_vy_array, map_vz_array.
  rewrite !fmean_Num by (cbn; congruence).
  rewrite !length_map. reflexivity.
Qed.



End Axis.

(** ** The order of the triples is immaterial *)

Section Order.

Lemma normals_cons (coords : list vec3) (t : nat * nat * nat)
    (combs : list (nat * nat * nat)) :
  Structure.normals coords (t :: combs)
  = (v <-- folded_normal_at coords t ;;
     l <-- Structure.normals coords combs ;;
     Ok (v :: l)).
Proof.
  destruct t as [[i j] k]. cbn [Structure.normals folded_normal_at].
  destruct (row coords i); [| reflexivity].
  destruct (row coords j); [| reflexivity].
  destruct (row coords k); reflexivity.
Qed.

Lemma folded_normal_at_raise (coords : list vec3) (t : nat * nat * nat)
    (e : exn) :
  folded_normal_at coords t = Raise e -> e = IndexError.
Proof.
  destruct t as [[i j] k]. unfold folded_normal_at, row.
  destruct (nth_error coords i); [| cbn; congruence].
  destruct (nth_error coords j); [| cbn; congruence].
  destruct (nth_error coords k); cbn; congruence.
Qed.

Lemma normals_raise (coords : list vec3) (combs : list (nat * nat * nat))
    (e : exn) :
  Structure.normals coords combs = Raise e -> e = IndexError.
Proof.
  induction combs as [| t combs IH]; [discriminate |].
  rewrite normals_cons.
  destruct (folded_normal_at coords t) eqn:Et; cbn [rbind].
  - destruct (Structure.normals coords combs); cbn [rbind]; [discriminate |].
    intros E. injection E as <-. now apply IH.
  - intros E. injection E as <-. eapply folded_normal_at_raise, Et.
Qed.








End Order.

(** ** What the methods compute *)

Section Runs.

Lemma find_center_run (s : Structure.t) :
  Structure.find_center s
  = (Build (name s) (atoms s) (coords s) (natoms s)
           (Some (find_center (coords s))) (main_axis s), Ok tt).
Proof. reflexivity. Qed.

Lemma find_axis_run (s : Structure.t) :
  Structure.find_axis None s
  = match axis_of (natoms s) (coords s) with
    | Ok a =>
        (Build (name s) (atoms s) (coords s) (natoms s) (center s) (Some a),
         Ok tt)
    | Raise e => (s, Raise e)
    end.
Proof.
  unfold Structure.find_axis, axis_of, default_combs, Structure.bind,
    Structure.get, Structure.lift.
  destruct (Structure.normals (coords s) _); reflexivity.
Qed.

Lemma update_geometry_run (s : Structure.t) :
  Structure.update_geometry s
  = let c := find_center (coords s) in
    match axis_of (natoms s) (coords s) with
    | Ok a =>
        (Build (name s) (atoms s) (coords s) (natoms s) (Some c) (Some a),
         Ok tt)
    | Raise e =>
        (Build (name s) (atoms s) (coords s) (natoms s) (Some c) (main_axis s),
         Raise e)
    end.
Proof.
  unfold Structure.update_geometry, Structure.bind at 1.
  rewrite find_center_run, find_axis_run.
  cbn [Structure.coords Structure.natoms Structure.name Structure.atoms
       Structure.center Structure.main_axis].
  destruct (axis_of _ _); reflexivity.
Qed.

Lemma translate_to_center_run (s : Structure.t) :
  Structure.translate_to_center s
  = let c := find_center (coords s) in
    match axis_of (natoms s) (coords s) with
    | Raise e =>
        (Build (name s) (atoms s) (coords s) (natoms s) (Some c) (main_axis s),
         Raise e)
    | Ok a =>
        match Structure.broadcast_sub (coords s)
                (Structure.trans_matrix (natoms s) c) with
        | Raise e =>
            (Build (name s) (atoms s) (coords s) (natoms s) (Some c) (Some a),
             Raise e)
        | Ok coords' =>
            let c' := find_center coords' in
            match axis_of (natoms s) coords' with
            | Ok a' =>
                (Build (name s) (atoms s) coords' (natoms s) (Some c') (Some a'),
                 Ok tt)
            | Raise e =>
                (Build (name s) (atoms s) coords' (natoms s) (Some c') (Some a),
                 Raise e)
            end
        end
    end.
Proof.
  unfold Structure.translate_to_center, Structure.bind at 1.
  rewrite update_geometry_run. cbv zeta.
  destruct (axis_of (natoms s) (coords s)) as [a | e]; [| reflexivity].
  unfold Structure.bind, Structure.get, Structure.getattr, Structure.lift,
    Structure.set_coords.
  cbn [Structure.coords Structure.natoms Structure.name Structure.atoms
       Structure.center Structure.main_axis].
  destruct (Structure.broadcast_sub _ _) as [coords' | e]; [| reflexivity].
  rewrite update_geometry_run.
  cbn [Structure.coords Structure.natoms Structure.name Structure.atoms
       Structure.center Structure.main_axis].
  destruct (axis_of (natoms s) coords'); reflexivity.
Qed.

End Runs.

(** ** The axis finder on point sets in general position *)

Section GeneralPosition.




End GeneralPosition.

(** ** The planar square *)

Section Square.

Lemma flat_normal (a b c : point) :
  pz a = 0 -> pz b = 0 -> pz c = 0 ->
  (px b - px a) * (py c - py a) - (py b - py a) * (px c - px a) <> 0 ->
  vabs (unit_vector (find_normal_from_points (pt a) (pt b) (pt c))) = vec 0 0 1.
Proof.
  intros Ha Hb Hc. unfold find_normal_from_points.
  rewrite cross_points, Ha, Hb, Hc.
  set (w := (px b - px a) * (py c - py a) - (py b - py a) * (px c - px a)).
  replace ((py b - py a) * (0 - 0) - (0 - 0) * (py c - py a)) with 0 by ring.
  replace ((0 - 0) * (px c - px a) - (px b - px a) * (0 - 0)) with 0 by ring.
  intros Hw.
  assert (Hnz : (0, 0, w) <> (0, 0, 0)).
  { intros E. apply Hw. now injection E. }
  rewrite (unit_vector_vec Hnz).
  pose proof (unit_sq3 Hnz) as Hu. cbv zeta in Hu.
  rewrite (unit_vector_unit Hu).
  assert (Hn : sqrt (sq3 0 0 w) = Rabs w).
  { unfold sq3. replace (0 * 0 + 0 * 0 + w * w) with (Rsqr w) by (unfold Rsqr; ring).
    apply sqrt_Rsqr_abs. }
  rewrite Hn.
  assert (Habs : Rabs w <> 0) by now apply Rabs_no_R0.
  unfold vabs, vmap, vec. cbn [vx vy vz fabs]. entrywise.
  - unfold Rdiv. rewrite Rmult_0_l. apply Rabs_R0.
  - unfold Rdiv. rewrite Rmult_0_l. apply Rabs_R0.
  - unfold Rdiv. rewrite Rabs_mult, Rabs_inv, Rabs_Rabsolu. now field.
Qed.

Lemma default_combs_4 :
  default_combs 4 = [(0, 1, 2); (0, 1, 3); (0, 2, 3); (1, 2, 3)]%nat.
Proof. reflexivity. Qed.

Lemma square_normals :
  Structure.normals (array square) (default_combs 4)
  = Ok (array [(0, 0, 1); (0, 0, 1); (0, 0, 1); (0, 0, 1)]).
Proof.
  rewrite default_combs_4.
  cbn [Structure.normals row array square map nth_error rbind].
  rewrite !flat_normal; try reflexivity; cbn [px py pz fst snd]; lra.
Qed.

(** The consensus axis of the square is [(0, 0, 1)]. *)
Lemma square_axis : axis_of 4 (array square) = Ok (Vector (vec 0 0 1)).
Proof.
  unfold axis_of. rewrite square_normals. cbn [rbind].
  rewrite mean_axis0_array by discriminate. cbv zeta.
  cbn [map px py pz fst snd rsum fold_right length INR].
  replace ((0 + (0 + (0 + (0 + 0)))) / (1 + 1 + 1 + 1)) with 0 by field.
  replace ((1 + (1 + (1 + (1 + 0)))) / (1 + 1 + 1 + 1)) with 1 by field.
  cbn [unit_vector_nd]. rewrite unit_vector_unit; [reflexivity |].
  unfold sq3. ring.
Qed.

(** C5.  On the planar four-point set (0,0,0), (1,0,0), (0,1,0),
    (1,1,0), [find_axis()] returns and stores exactly [(0, 0, 1)]. *)
Theorem find_axis_square :
  Structure.init ["C"; "C"; "C"; "C"]%string (array square) None
  = Ok square_structure /\
  Structure.find_axis None square_structure
  = (Build "system" ["C"; "C"; "C"; "C"]%string (array square) 4 None
           (Some (Vector (vec 0 0 1))), Ok tt).
Proof.
  split; [reflexivity |].
  rewrite find_axis_run. cbn [natoms coords square_structure].
  now rewrite square_axis.
Qed.

End Square.

(** ** Re-centring *)

Section Centring.

Lemma find_center_array (pts : list point) :
  pts <> [] -> find_center (array pts) = pt (centroid pts).
Proof.
  intros Hp. unfold find_center.
  rewrite map_vx_array, map_vy_array, map_vz_array.
  rewrite !fmean_Num by (destruct pts; [congruence | discriminate]).
  rewrite !length_map. reflexivity.
Qed.











End Centring.

(** ** The axis is recomputed around every translation *)

Section Recompute.

Lemma fadd_nan_r (a : float64) : fadd a NaN = NaN.
Proof. now destruct a. Qed.

Lemma fmul_nan_r (a : float64) : fmul a NaN = NaN.
Proof. now destruct a. Qed.

Lemma unit_vector_nan3 : unit_vector nan3 = nan3.
Proof. reflexivity. Qed.

(** With fewer than three labels there is no triple: the list of normals
    is empty, its mean is the scalar [nan], and so is [main_axis]. *)
Lemma axis_of_few (n : nat) (coords : list vec3) :
  (n < 3)%nat -> axis_of n coords = Ok (Scalar NaN).
Proof.
  intros Hn. unfold axis_of, default_combs.
  rewrite combinations3_short by (rewrite length_seq; exact Hn).
  rewrite unique_combs_nil. cbn [Structure.normals rbind mean_axis0].
  rewrite mean_empty. reflexivity.
Qed.




End Recompute.

(** ** Rotation of a structure that is already aligned *)

Section Aligned.

Lemma rotate_to_z_run (s : Structure.t) :
  Structure.rotate_to_z s
  = let c := find_center (coords s) in
    let z := vec 0 0 1 in
    match axis_of (natoms s) (coords s) with
    | Raise e =>
        (Build (name s) (atoms s) (coords s) (natoms s) (Some c) (main_axis s),
         Raise e)
    | Ok (Scalar x) =>
        (Build (name s) (atoms s) (coords s) (natoms s) (Some c)
               (Some (Scalar x)), Raise ValueError)
    | Ok (Vector ax) =>
        let M := rotation_matrix (angle_between ax z)
                   (find_normal_from_vectors ax z) (Some c) in
        let coords' := apply_4x4_matrix_to_3D_set M (coords s) in
        let c' := find_center coords' in
        match axis_of (natoms s) coords' with
        | Ok a' =>
            (Build (name s) (atoms s) coords' (natoms s) (Some c') (Some a'),
             Ok tt)
        | Raise e =>
            (Build (name s) (atoms s) coords' (natoms s) (Some c')
                   (Some (Vector ax)), Raise e)
        end
    end.
Proof.
  unfold Structure.rotate_to_z, Structure.bind at 1.
  rewrite update_geometry_run. cbv zeta.
  destruct (axis_of (natoms s) (coords s)) as [[x | ax] | e]; try reflexivity.
  unfold Structure.bind, Structure.get, Structure.getattr, Structure.set_coords.
  cbn [Structure.coords Structure.natoms Structure.name Structure.atoms
       Structure.center Structure.main_axis].
  rewrite update_geometry_run.
  cbn [Structure.coords Structure.natoms Structure.name Structure.atoms
       Structure.center Structure.main_axis].
  destruct (axis_of (natoms s) _); reflexivity.
Qed.

(** A direction of [nan] components turns every entry of the rotation
    block and of the translation column into [nan], whatever the angle
    and the pivot, and with them every transformed coordinate. *)
Lemma rotation_matrix_nan (angle : float64) (c : vec3) (coords : list vec3) :
  apply_4x4_matrix_to_3D_set (rotation_matrix angle nan3 (Some c)) coords
  = map (fun _ => nan3) coords.
Proof.
  unfold rotation_matrix. rewrite unit_vector_nan3.
  unfold apply_4x4_matrix_to_3D_set. apply map_ext. intros p.
  cbv beta iota zeta delta
    [nan3 vscale vadd vsub vmap vmap2 mat3_dot dot dot4 vx vy vz r0 r1 r2
     h0 h1 h2 h3 m0 m1 m2 m3].
  rewrite !fmul_nan_r. cbn [fmul fneg]. rewrite !fadd_nan_r. reflexivity.
Qed.

Lemma aligned_direction :
  find_normal_from_vectors (vec 0 0 1) (vec 0 0 1) = nan3.
Proof.
  unfold find_normal_from_vectors.
  apply unit_vector_norm_zero.
  unfold norm, cross, dot, vec. cbn [vx vy vz fmul fsub fadd].
  replace (_ + _) with 0 by ring.
  rewrite fsqrt_num by lra. now rewrite sqrt_0.
Qed.

Lemma axis_of_nan4 :
  axis_of 4 [nan3; nan3; nan3; nan3] = Ok (Vector nan3).
Proof.
  unfold axis_of. rewrite default_combs_4. reflexivity.
Qed.

(** C1, on the code.  The square has its axis on [(0, 0, 1)] already.
    [rotate_to_z()] has no case for it: the rotation direction is the
    normalised zero vector, and the call returns with every coordinate,
    the center and the axis all [nan]. *)
Theorem rotate_to_z_aligned_is_nan :
  axis_of (natoms square_structure) (coords square_structure)
  = Ok (Vector (vec 0 0 1)) /\
  Structure.rotate_to_z square_structure
  = (Build "system" ["C"; "C"; "C"; "C"]%string [nan3; nan3; nan3; nan3] 4
           (Some nan3) (Some (Vector nan3)), Ok tt).
Proof.
  split; [exact square_axis |].
  rewrite rotate_to_z_run. cbv zeta.
  cbn [natoms coords name atoms main_axis square_structure].
  rewrite square_axis, aligned_direction, rotation_matrix_nan.
  cbn [map array square]. rewrite axis_of_nan4. reflexivity.
Qed.

End Aligned.

(** ** Construction *)

Section Construction.

(** C7, as the code has it.  The constructor checks nothing and cannot
    raise: whatever the two lengths, it returns a structure that holds the
    labels and the points as given, counts the labels in [natoms] and has
    neither [center] nor [main_axis] yet. *)
Theorem init_stores_arguments (labels : list string) (points : list vec3)
    (label : option string) :
  exists s,
    Structure.init labels points label = Ok s /\
    atoms s = labels /\ coords s = points /\ natoms s = length labels /\
    center s = None /\ main_axis s = None.
Proof. eexists. repeat split. Qed.

(** C7 fails on the code: one label and two points make a structure. *)
Lemma init_accepts_mismatch :
  exists s,
    Structure.init ["H"]%string (array [(0, 0, 0); (1, 0, 0)]) None = Ok s /\
    length (atoms s) <> length (coords s).
Proof. eexists. split; [reflexivity |]. cbn. lia. Qed.

(** The mismatch shows only later, if at all: with three labels or more
    and fewer points than labels, the axis finder indexes a missing row. *)
Lemma mismatch_raises_late (s : Structure.t) :
  (3 <= natoms s)%nat -> (length (coords s) < natoms s)%nat ->
  Structure.outcome Structure.update_geometry s = Raise IndexError.
Proof.
  intros H3 Hlt. unfold Structure.outcome. rewrite update_geometry_run. cbv zeta.
  assert (E : axis_of (natoms s) (coords s) = Raise IndexError); [| now rewrite E].
  unfold axis_of.
  assert (Hl : forall combs,
             (exists i j k, In (i, j, k) combs /\ (length (coords s) <= k)%nat) ->
             (forall i j k, In (i, j, k) combs -> (i < j < k)%nat) ->
             Structure.normals (coords s) combs = Raise IndexError).
  { induction combs as [| [[i j] k] combs IH]; intros (i0 & j0 & k0 & Hin & Hk) Hord.
    - destruct Hin.
    - cbn [Structure.normals]. unfold row.
      destruct (nth_error (coords s) i) eqn:Ei; [| reflexivity].
      destruct (nth_error (coords s) j) eqn:Ej; [| reflexivity].
      destruct (nth_error (coords s) k) eqn:Ek; [| reflexivity].
      cbn [rbind]. destruct Hin as [Eq | Hin].
      + injection Eq as -> -> ->. apply nth_error_None in Hk. congruence.
      + rewrite IH; [reflexivity | now exists i0, j0, k0 |].
        intros. eapply Hord. right. eassumption. }
  rewrite Hl; [reflexivity | |].
  - exists 0%nat, 1%nat, (natoms s - 1)%nat. split; [| lia].
    unfold default_combs. apply unique_combs_In.
    apply combinations3_seq_In; lia.
  - intros i j k Hin. now apply default_combs_spec in Hin.
Qed.

End Construction.

(** * Further properties of the module *)

(** ** Normalisation, cosine and angle *)

Section Primitives.

Lemma sqrt_sq3_pos (x y z : R) :
  (x, y, z) <> (0, 0, 0) -> 0 < sqrt (sq3 x y z).
Proof. intros H. apply sqrt_lt_R0, sq3_pos, H. Qed.




Lemma unit_vector_scaled (t x y z : R) :
  t <> 0 -> (x, y, z) <> (0, 0, 0) ->
  unit_vector (vec (t * x) (t * y) (t * z))
  = vscale (unit_vector (vec x y z)) (Num (t / Rabs t)).
Proof.
  intros Ht H.
  assert (Ht' : (t * x, t * y, t * z) <> (0, 0, 0)).
  { intros E. apply H. injection E as Ex Ey Ez.
    apply Rmult_integral in Ex, Ey, Ez.
    destruct Ex as [? | ->], Ey as [? | ->], Ez as [? | ->];
      try contradiction; reflexivity. }
  rewrite (unit_vector_vec H), (unit_vector_vec Ht').
  assert (Hs : sqrt (sq3 (t * x) (t * y) (t * z)) = Rabs t * sqrt (sq3 x y z)).
  { replace (sq3 (t * x) (t * y) (t * z)) with (Rsqr t * sq3 x y z)
      by (unfold sq3, Rsqr; ring).
    rewrite sqrt_mult; [| apply Rle_0_sqr | apply sq3_nonneg].
    now rewrite sqrt_Rsqr_abs. }
  rewrite Hs. pose proof (sqrt_sq3_pos H) as Hn.
  assert (Ha : Rabs t <> 0) by now apply Rabs_no_R0.
  unfold vscale, vmap, vec. cbn [vx vy vz fmul]. entrywise; field; lra.
Qed.













(** X6.  When either argument is the zero vector, [cos_between] and
    [angle_between] return [nan]: the normalisation is [0/0] and nothing
    is raised. *)
Theorem angle_with_zero_vector (v : vec3) :
  cos_between (vec 0 0 0) v = NaN /\ cos_between v (vec 0 0 0) = NaN /\
  angle_between (vec 0 0 0) v = NaN /\ angle_between v (vec 0 0 0) = NaN.
Proof.
  assert (Hz : unit_vector (vec 0 0 0) = nan3).
  { apply unit_vector_norm_zero. rewrite norm_vec. unfold sq3.
    replace (0 * 0 + 0 * 0 + 0 * 0) with 0 by ring. now rewrite sqrt_0. }
  unfold cos_between, angle_between. rewrite Hz.
  assert (Hr : forall w, dot w nan3 = NaN).
  { intros [a b c]. unfold dot, nan3. cbn [vx vy vz].
    now rewrite !fmul_nan_r, !fadd_nan_r. }
  rewrite Hr. repeat split; reflexivity.
Qed.

End Primitives.

(** ** The normal estimators *)

Section Normals.







Lemma unit_vector_opp (x y z : R) :
  unit_vector (vec (- x) (- y) (- z)) = vmap fneg (unit_vector (vec x y z)).
Proof.
  destruct (Req_EM_T (sq3 x y z) 0) as [E0 | Hpos].
  - assert (x = 0 /\ y = 0 /\ z = 0) as (-> & -> & ->)
      by (unfold sq3 in E0; repeat split; nra).
    replace (- 0) with 0 by ring.
    rewrite unit_vector_norm_zero; [reflexivity |].
    rewrite norm_vec. unfold sq3.
    replace (0 * 0 + 0 * 0 + 0 * 0) with 0 by ring. now rewrite sqrt_0.
  - assert (H : (x, y, z) <> (0, 0, 0)).
    { intros E. injection E as -> -> ->. apply Hpos. unfold sq3. ring. }
    replace (vec (- x) (- y) (- z))
      with (vec (-1 * x) (-1 * y) (-1 * z))
      by (unfold vec; entrywise; ring).
    rewrite unit_vector_scaled by (lra || exact H).
    rewrite (unit_vector_vec H). pose proof (sqrt_sq3_pos H).
    unfold vscale, vmap, vec. cbn [vx vy vz fmul fneg].
    replace (Rabs (-1)) with 1
      by (rewrite Rabs_left by lra; ring).
    entrywise; field; lra.
Qed.

Lemma normal_swap (a b c : point) :
  find_normal_from_points (pt a) (pt c) (pt b)
  = vmap fneg (find_normal_from_points (pt a) (pt b) (pt c)) /\
  find_normal_from_vectors (pt c) (pt b)
  = vmap fneg (find_normal_from_vectors (pt b) (pt c)) /\
  vabs (find_normal_from_points (pt a) (pt c) (pt b))
  = vabs (find_normal_from_points (pt a) (pt b) (pt c)).
Proof.
  assert (Hsw : forall u v : point,
             cross (pt v) (pt u)
             = vec (- (py u * pz v - pz u * py v))
                   (- (pz u * px v - px u * pz v))
                   (- (px u * py v - py u * px v))).
  { intros u v. unfold cross, pt, vec. cbn [vx vy vz fmul fsub].
    entrywise; ring. }
  assert (Hcr : forall u v : point,
             cross (pt u) (pt v)
             = vec (py u * pz v - pz u * py v)
                   (pz u * px v - px u * pz v)
                   (px u * py v - py u * px v)) by reflexivity.
  assert (Hpts : find_normal_from_points (pt a) (pt c) (pt b)
                 = vmap fneg (find_normal_from_points (pt a) (pt b) (pt c))).
  { unfold find_normal_from_points.
    change (vsub (pt b) (pt a))
      with (pt (px b - px a, py b - py a, pz b - pz a)).
    change (vsub (pt c) (pt a))
      with (pt (px c - px a, py c - py a, pz c - pz a)).
    rewrite Hsw, Hcr. apply unit_vector_opp. }
  split; [exact Hpts |]. split.
  - unfold find_normal_from_vectors. rewrite Hsw, Hcr. apply unit_vector_opp.
  - rewrite Hpts.
    destruct (find_normal_from_points (pt a) (pt b) (pt c)) as [[x |] [y |] [z |]];
      unfold vabs, vmap; cbn [vx vy vz fneg fabs]; now rewrite ?Rabs_Ropp.
Qed.

(** X9.  Exchanging the last two points, or the two vectors, turns the normal
    into its opposite; after the fold to absolute values the two
    orientations give the same vector. *)
Theorem normal_orientation (a b c : point) :
  find_normal_from_points (pt a) (pt c) (pt b)
  = vmap fneg (find_normal_from_points (pt a) (pt b) (pt c)) /\
  find_normal_from_vectors (pt c) (pt b)
  = vmap fneg (find_normal_from_vectors (pt b) (pt c)) /\
  vabs (find_normal_from_points (pt a) (pt c) (pt b))
  = vabs (find_normal_from_points (pt a) (pt b) (pt c)).
Proof. exact (normal_swap a b c). Qed.


End Normals.

(** ** The rotation as a map of points *)

Section Turn.







End Turn.

(** ** The transform of [rotation_matrix] on point sets *)

Section RotationOfPoints.











End RotationOfPoints.

(** ** The rotation of [rotate_to_z] *)

Section Alignment.






End Alignment.

(** ** The methods on well-shaped and on ill-shaped structures *)

Section Methods.






(** X17.  With fewer than three labels [rotate_to_z()] raises [ValueError]
    ([np.cross] on the scalar [nan] axis): the coordinates are untouched,
    [center] has been recomputed and [main_axis] is the scalar [nan]. *)
Theorem rotate_to_z_needs_three_points (self : Structure.t) :
  (natoms self < 3)%nat ->
  Structure.rotate_to_z self
  = (Build (name self) (atoms self) (coords self) (natoms self)
           (Some (find_center (coords self))) (Some (Scalar NaN)),
     Raise ValueError).
Proof.
  intros Hn. rewrite rotate_to_z_run. cbv zeta.
  now rewrite axis_of_few by exact Hn.
Qed.

Lemma rotate_to_z_needs_three_points_witness :
  Structure.rotate_to_z pair_structure
  = (Build (name pair_structure) (atoms pair_structure)
           (coords pair_structure) (natoms pair_structure)
           (Some (find_center (coords pair_structure))) (Some (Scalar NaN)),
     Raise ValueError).
Proof. apply rotate_to_z_needs_three_points. cbn. lia. Defined.

Lemma axis_of_mismatch (s : Structure.t) :
  (3 <= natoms s)%nat -> (length (coords s) < natoms s)%nat ->
  axis_of (natoms s) (coords s) = Raise IndexError.
Proof.
  intros H3 Hlt. pose proof (mismatch_raises_late s H3 Hlt) as E.
  unfold Structure.outcome in E. rewrite update_geometry_run in E.
  cbv zeta in E. destruct (axis_of (natoms s) (coords s)); cbn in E;
    [discriminate | congruence].
Qed.

(** X18.  With three labels or more and fewer points than labels, each of
    [update_geometry()], [translate_to_center()] and [rotate_to_z()]
    raises [IndexError] from the first axis computation: no coordinate
    has moved and [main_axis] is as before, but [center] has already
    been overwritten. *)
Theorem geometry_methods_fail_on_missing_rows (self : Structure.t) :
  (3 <= natoms self)%nat -> (length (coords self) < natoms self)%nat ->
  let failed :=
    (Build (name self) (atoms self) (coords self) (natoms self)
           (Some (find_center (coords self))) (main_axis self),
     @Raise unit IndexError) in
  Structure.update_geometry self = failed /\
  Structure.translate_to_center self = failed /\
  Structure.rotate_to_z self = failed.
Proof.
  intros H3 Hlt failed. subst failed.
  rewrite update_geometry_run, translate_to_center_run, rotate_to_z_run.
  cbv zeta. rewrite (axis_of_mismatch self H3 Hlt). repeat split.
Qed.

Lemma geometry_methods_fail_on_missing_rows_witness :
  let failed :=
    (Build (name short_structure) (atoms short_structure)
           (coords short_structure) (natoms short_structure)
           (Some (find_center (coords short_structure)))
           (main_axis short_structure),
     @Raise unit IndexError) in
  Structure.update_geometry short_structure = failed /\
  Structure.translate_to_center short_structure = failed /\
  Structure.rotate_to_z short_structure = failed.
Proof.
  apply geometry_methods_fail_on_missing_rows; cbn; lia.
Defined.

End Methods.

(** ** [rotate_to_z] on a structure that is not yet aligned *)

Section RigidRotation.







End RigidRotation.

(** ** The module-level [find_axis] and [find_center] *)

Section ModuleLevel.

Lemma plain_normals_total (coords : list vec3) (combs : list (nat * nat * nat)) :
  (forall i j k, In (i, j, k) combs ->
     (i < length coords)%nat /\ (j < length coords)%nat /\ (k < length coords)%nat) ->
  exists l, plain_normals coords combs = Ok l.
Proof.
  induction combs as [| [[i j] k] combs IH]; intros Hin.
  - exists []. reflexivity.
  - destruct IH as (l & El); [intros; apply Hin; now right |].
    destruct (Hin i j k (or_introl eq_refl)) as (Hi & Hj & Hk).
    cbn [plain_normals]. unfold row.
    destruct (nth_error coords i) eqn:Ei; [| apply nth_error_None in Ei; lia].
    destruct (nth_error coords j) eqn:Ej; [| apply nth_error_None in Ej; lia].
    destruct (nth_error coords k) eqn:Ek; [| apply nth_error_None in Ek; lia].
    cbn [rbind]. rewrite El. cbn [rbind]. eexists. reflexivity.
Qed.

(** X20.  The function [find_axis(coords)] draws its indices from the array
    itself, so it never raises, whatever the array holds; on fewer than
    three rows it returns the scalar [nan]. *)
Theorem find_axis_never_raises (coords : list vec3) :
  exists a,
    find_axis coords = Ok a /\
    ((length coords < 3)%nat -> a = Scalar NaN).
Proof.
  unfold find_axis.
  destruct (@plain_normals_total coords
              (unique_combs (combinations3 (seq 0 (length coords)))))
    as (l & El).
  { intros i j k Hin. apply (default_combs_spec (length coords)) in Hin. lia. }
  rewrite El. cbn [rbind]. eexists. split; [reflexivity |].
  intros Hn. revert El.
  rewrite combinations3_short by (rewrite length_seq; exact Hn).
  rewrite unique_combs_nil. cbn [plain_normals]. intros El.
  injection El as <-. cbn [mean_axis0]. now rewrite mean_empty.
Qed.








End ModuleLevel.

(** ** [find_axis] on a subset of the atoms *)

Section Subset.

Lemma combinations2_members {A : Type} (l : list A) (x y : A) :
  In (x, y) (combinations2 l) -> In x l /\ In y l.
Proof.
  induction l as [| a l IH]; cbn [combinations2]; [contradiction |].
  rewrite in_app_iff, in_map_iff. intros [(b & E & Hb) | Hin].
  - injection E as <- <-. split; [now left | now right].
  - destruct (IH Hin). split; now right.
Qed.

Lemma combinations3_members {A : Type} (l : list A) (x y z : A) :
  In (x, y, z) (combinations3 l) -> In x l /\ In y l /\ In z l.
Proof.
  induction l as [| a l IH]; cbn [combinations3]; [contradiction |].
  rewrite in_app_iff, in_map_iff. intros [([b c] & E & Hp) | Hin].
  - cbn in E. injection E as <- <- <-.
    apply combinations2_members in Hp. destruct Hp.
    repeat split; [now left | now right | now right].
  - destruct (IH Hin) as (? & ? & ?). repeat split; now right.
Qed.

(** With three elements or more, every element occurs in some triple. *)
Lemma combinations3_covers {A : Type} (l : list A) (x : A) :
  (3 <= length l)%nat -> In x l ->
  exists i j k, In (i, j, k) (combinations3 l) /\ (i = x \/ j = x \/ k = x).
Proof.
  induction l as [| a l IH]; [cbn; lia |]. intros Hlen Hin.
  destruct l as [| u [| v r]]; try (cbn in Hlen; lia).
  assert (Hfirst : In (a, u, v) (combinations3 (a :: u :: v :: r))).
  { cbn [combinations3 combinations2]. apply in_or_app. left.
    apply in_map_iff. exists (u, v). split; [reflexivity |].
    apply in_or_app. left. now left. }
  destruct Hin as [<- | Hin].
  - exists a, u, v. split; [exact Hfirst | now left].
  - destruct r as [| r0 r].
    + exists a, u, v. split; [exact Hfirst |].
      destruct Hin as [<- | [<- | []]]; tauto.
    + destruct IH as (i & j & k & Ht & Hx); [cbn; lia | exact Hin |].
      exists i, j, k. split; [| exact Hx].
      cbn [combinations3]. apply in_or_app. right. exact Ht.
Qed.

Lemma normals_out_of_range (coords : list vec3) (combs : list (nat * nat * nat))
    (i j k : nat) :
  In (i, j, k) combs ->
  (length coords <= i \/ length coords <= j \/ length coords <= k)%nat ->
  Structure.normals coords combs = Raise IndexError.
Proof.
  intros Hin Hbad. induction combs as [| [[i' j'] k'] combs IH]; [destruct Hin |].
  cbn [Structure.normals]. unfold row.
  destruct (nth_error coords i') eqn:Ei; [| reflexivity].
  destruct (nth_error coords j') eqn:Ej; [| reflexivity].
  destruct (nth_error coords k') eqn:Ek; [| reflexivity].
  cbn [rbind]. destruct Hin as [E | Hin].
  - injection E as -> -> ->.
    destruct Hbad as [H | [H | H]]; apply nth_error_None in H; congruence.
  - now rewrite IH.
Qed.

Lemma find_axis_subset_run (subset : list nat) (s : Structure.t) :
  Structure.find_axis (Some subset) s
  = match Structure.normals (coords s) (unique_combs (combinations3 subset)) with
    | Ok l =>
        (Build (name s) (atoms s) (coords s) (natoms s) (center s)
               (Some (unit_vector_nd (mean_axis0 l))), Ok tt)
    | Raise e => (s, Raise e)
    end.
Proof.
  unfold Structure.find_axis, Structure.bind, Structure.get, Structure.lift.
  destruct (Structure.normals (coords s) _); reflexivity.
Qed.

(** X23.  [find_axis(atoms=subset)] with a list of row numbers.  If the list
    has three entries or more and one of them is not a row of [coords],
    the call raises [IndexError] and the object is untouched; if every
    entry is a row, the call returns and only [main_axis] changes; with
    fewer than three entries [main_axis] becomes the scalar [nan]. *)
Theorem find_axis_subset (subset : list nat) (self : Structure.t) :
  ((3 <= length subset)%nat ->
   (exists i, In i subset /\ (length (coords self) <= i)%nat) ->
   Structure.find_axis (Some subset) self = (self, Raise IndexError)) /\
  ((forall i, In i subset -> (i < length (coords self))%nat) ->
   exists a,
     Structure.find_axis (Some subset) self
     = (Build (name self) (atoms self) (coords self) (natoms self)
              (center self) (Some a), Ok tt)) /\
  ((length subset < 3)%nat ->
   Structure.find_axis (Some subset) self
   = (Build (name self) (atoms self) (coords self) (natoms self)
            (center self) (Some (Scalar NaN)), Ok tt)).
Proof.
  rewrite find_axis_subset_run. repeat split.
  - intros Hlen (x & Hx & Hbad).
    destruct (combinations3_covers subset x Hlen Hx) as (i & j & k & Ht & Hc).
    rewrite (@normals_out_of_range (coords self) _ i j k); [reflexivity | |].
    + now apply unique_combs_In.
    + destruct Hc as [-> | [-> | ->]]; tauto.
  - intros Hall.
    destruct (@normals_total (coords self) (unique_combs (combinations3 subset)))
      as (l & -> & _).
    + intros i j k Hin. apply unique_combs_In, combinations3_members in Hin.
      destruct Hin as (Hi & Hj & Hk). auto.
    + eexists. reflexivity.
  - intros Hlen. rewrite combinations3_short by exact Hlen.
    rewrite unique_combs_nil. cbn [Structure.normals mean_axis0 unit_vector_nd].
    now rewrite mean_empty.
Qed.

Lemma find_axis_subset_witness :
  Structure.find_axis (Some [0; 1; 7]%nat) square_structure
  = (square_structure, Raise IndexError) /\
  (exists a,
     Structure.find_axis (Some [0; 1; 3]%nat) square_structure
     = (Build "system" ["C"; "C"; "C"; "C"]%string (array square) 4 None
              (Some a), Ok tt)) /\
  Structure.find_axis (Some [0; 1]%nat) square_structure
  = (Build "system" ["C"; "C"; "C"; "C"]%string (array square) 4 None
           (Some (Scalar NaN)), Ok tt).
Proof.
  split; [| split].
  - apply (proj1 (find_axis_subset [0; 1; 7]%nat square_structure)).
    + cbn. lia.
    + exists 7%nat. split; [cbn; tauto | cbn; lia].
  - apply (proj1 (proj2 (find_axis_subset [0; 1; 3]%nat square_structure))).
    intros i Hi. cbn in Hi. cbn. lia.
  - apply (proj2 (proj2 (find_axis_subset [0; 1]%nat square_structure))).
    cbn. lia.
Defined.

End Subset.

(** ** The alternative construction [calc_rot_matrix] *)

Section AlternativeMatrix.



End AlternativeMatrix.

(** ** Point sets in a horizontal plane *)

Section Level.










End Level.

(** ** [rotate_to_z] on a planar structure *)

Section PlanarAlignment.










End PlanarAlignment.

(** ** The cached fields *)

Section Cache.

(** X27.  [update_geometry()] is idempotent: run again on the object it
    leaves, whether it returned or raised, it ends the same way and
    changes nothing. *)
Theorem update_geometry_idempotent (self : Structure.t) :
  let s1 := Structure.state_after Structure.update_geometry self in
  Structure.update_geometry s1
  = (s1, Structure.outcome Structure.update_geometry self).
Proof.
  unfold Structure.state_after, Structure.outcome.
  rewrite (update_geometry_run self). cbv zeta.
  destruct (axis_of (natoms self) (coords self)) as [a | e] eqn:Ea;
    cbn [fst snd]; rewrite update_geometry_run;
    cbn [coords natoms name atoms center main_axis]; now rewrite Ea.
Qed.

(** X28.  No method reads [center] or [main_axis] before it has assigned
    them: two objects that differ in these two fields only end
    [update_geometry()], [translate_to_center()] and [rotate_to_z()]
    the same way and, when the call returns, in the same state. *)
Theorem methods_ignore_cached_fields (nm : string) (labels : list string)
    (points : list vec3) (n : nat) (c c' : option vec3) (m m' : option ndarray) :
  let s1 := Build nm labels points n c m in
  let s2 := Build nm labels points n c' m' in
  agree (Structure.update_geometry s1) (Structure.update_geometry s2) /\
  agree (Structure.translate_to_center s1) (Structure.translate_to_center s2) /\
  agree (Structure.rotate_to_z s1) (Structure.rotate_to_z s2).
Proof.
  intros s1 s2. subst s1 s2. unfold agree.
  rewrite !update_geometry_run, !translate_to_center_run, !rotate_to_z_run.
  cbv zeta. cbn [coords natoms name atoms center main_axis].
  destruct (axis_of n points) as [[x | ax] | e]; cbn [fst snd];
    repeat split; intros;
    repeat match goal with
      | H : context [match ?x with _ => _ end] |- _ =>
          destruct x; cbn [fst snd] in *
      | |- context [match ?x with _ => _ end] =>
          destruct x; cbn [fst snd] in *
      end;
    try reflexivity; try discriminate.
Qed.

End Cache.

(** ** Labels that do not match the rows *)

Section Broadcast.

(** X29.  One row and fewer than three labels: nothing is raised.  numpy
    broadcasts the single row over the translation matrix, so
    [translate_to_center()] returns with as many rows as there are
    labels, every one of them at the origin. *)
Theorem translate_to_center_broadcasts_single_row (p : point)
    (self : Structure.t) :
  coords self = array [p] -> (natoms self < 3)%nat ->
  exists s',
    Structure.translate_to_center self = (s', Ok tt) /\
    coords s' = array (repeat (0, 0, 0) (natoms self)).
Proof.
  intros Hc Hn. rewrite translate_to_center_run. cbv zeta.
  rewrite !axis_of_few by exact Hn. rewrite Hc.
  rewrite find_center_array by discriminate.
  assert (Hrow : vsub (pt p) (vmap (fmul (Num 1)) (pt (centroid [p])))
                 = pt (0, 0, 0)).
  { destruct p as [[x y] z]. unfold centroid, pt, vsub, vmap2, vmap, vec.
    cbn [px py pz fst snd map rsum fold_right length INR vx vy vz fmul fsub].
    entrywise; field. }
  assert (Hsub : Structure.broadcast_sub (array [p])
                   (Structure.trans_matrix (natoms self) (pt (centroid [p])))
                 = Ok (array (repeat (0, 0, 0) (natoms self)))).
  { unfold Structure.trans_matrix.
    destruct (natoms self) as [| [| [| k]]]; try lia;
      cbn [repeat array map Structure.broadcast_sub length Nat.eqb combine
           fst snd];
      now rewrite ?Hrow. }
  rewrite Hsub. rewrite axis_of_few by exact Hn.
  eexists. split; reflexivity.
Qed.

Lemma translate_to_center_broadcasts_single_row_witness :
  exists s',
    Structure.translate_to_center
      (Build "system" ["H"; "H"]%string (array [(1, 2, 3)]) 2 None None)
    = (s', Ok tt) /\
    coords s' = array (repeat (0, 0, 0) 2).
Proof.
  apply (@translate_to_center_broadcasts_single_row (1, 2, 3)
           (Build "system" ["H"; "H"]%string (array [(1, 2, 3)]) 2 None None)).
  - reflexivity.
  - cbn. lia.
Defined.

End Broadcast.

(** ** The order in which the set yields the triples *)

Section SetOrder.



End SetOrder.
